(** * Safety-first support decision logic: "payment failed but amount debited"

    A shallow embedding of [payment-prototype/decision_flow.js] and the
    properties of its decision procedure [analyzeCase].

    Modelling choices, all read off the source:
    - a JavaScript [number] is an IEEE 754 binary64 value, here Rocq's
      primitive [float]; [<] and [>] are [PrimFloat.ltb], which is false as
      soon as one side is NaN, exactly as in JavaScript;
    - [status], [gateway_response] and [currency] are strings compared with
      [===]; the sample scenarios of the source leave [currency] out, so that
      field is optional;
    - the argument of [analyzeCase] is a reference to an object, and the
      function writes to the console: both live in an explicit [World] that
      the embedding threads through a small state monad;
    - a template literal is kept as its list of pieces, the interpolated
      numbers being stored as numbers (their decimal rendering is not
      modelled). *)

From Stdlib Require Import Bool Ascii String List ZArith Floats Lia.
Import ListNotations.

Local Open Scope string_scope.

(** ** Data shape *)

Record CaseRecord : Type := mkCase {
  status : string;                  (* 'FAILED' | 'PENDING' | 'SUCCESS' *)
  gateway_response : string;        (* 'FAILURE' | 'TIMEOUT' | 'SUCCESS' *)
  amount : float;
  currency : option string;
  debited_from_customer : bool;
  time_elapsed_hours : float;
  system_certainty_score : float    (* 0-1 *)
}.

Record Rules : Type := mkRules {
  HIGH_VALUE_THRESHOLD : float;
  AUTO_REVERSAL_WINDOW_HOURS : float;
  CERTAINTY_THRESHOLD : float
}.

Definition RULES : Rules :=
  {| HIGH_VALUE_THRESHOLD := 5000%float;
     AUTO_REVERSAL_WINDOW_HOURS := 24%float;
     CERTAINTY_THRESHOLD := 1.0%float |}.

(** A piece of a template literal: literal text, or an interpolated number. *)
Inductive piece : Type :=
| Lit (s : string)
| Num (x : float).

Definition text : Type := list piece.

(** The object literal [{ decision: ..., reason: ... }] returned by the code. *)
Record Decision : Type := mkDecision {
  decision : string;
  reason : text
}.

(** ** The world the function runs in *)

(** One argument of a [console.log] call: a string, or the result of
    [JSON.stringify] applied to the record as it was at the time of the call. *)
Inductive logged : Type :=
| LogStr (s : string)
| LogJSON (snapshot : CaseRecord).

Record World : Type := mkWorld {
  data : CaseRecord;                (* the object the parameter [data] refers to *)
  console : list (list logged)      (* lines written so far, oldest first *)
}.

Module JS.

Definition M (A : Type) : Type := World -> A * World.

Definition ret {A : Type} (a : A) : M A := fun w => (a, w).

Definition bind {A B : Type} (m : M A) (k : A -> M B) : M B :=
  fun w => let (a, w') := m w in k a w'.

(** Property read [data.f]. *)
Definition get {A : Type} (f : CaseRecord -> A) : M A :=
  fun w => (f (data w), w).

(** [JSON.stringify(data, null, 2)] reads every field and writes none. *)
Definition JSON_stringify : M logged :=
  fun w => (LogJSON (data w), w).

(** [console.log(a, b, ...)] appends one line. *)
Definition console_log (args : list logged) : M unit :=
  fun w => (tt, {| data := data w; console := console w ++ [args] |}).

(** The relational and equality operators on numbers: [x > y], [x < y],
    [x <= y], [x >= y] and [x === y]. Each is false when a side is NaN. *)
Definition gt (x y : float) : bool := PrimFloat.ltb y x.
Definition lt (x y : float) : bool := PrimFloat.ltb x y.
Definition le (x y : float) : bool := PrimFloat.leb x y.
Definition ge (x y : float) : bool := PrimFloat.leb y x.
Definition eq (x y : float) : bool := PrimFloat.eqb x y.

End JS.

Declare Scope js_scope.
Delimit Scope js_scope with js.
Notation "x <- m ;; k" := (JS.bind m (fun x => k))
  (at level 61, m at next level, right associativity) : js_scope.
Notation "m ;;; k" := (JS.bind m (fun _ => k))
  (at level 61, right associativity) : js_scope.

(** ** The decision procedure *)

Definition reason_limbo : text :=
  [Lit "CRITICAL: Customer debited but transaction marked FAILED. Reconciliation required."].

Definition reason_high_value (amt : float) : text :=
  [Lit "RISK: Transaction amount ("; Num amt;
   Lit ") exceeds safety threshold. Human review mandatory."].

Definition reason_uncertainty : text :=
  [Lit "UNCERTIANTY: System cannot definitively verify funds location."].

Definition reason_wait : text :=
  [Lit "STANDARD PROCESS: Transaction is pending. Auto-reversal window (";
   Num (AUTO_REVERSAL_WINDOW_HOURS RULES);
   Lit "h) active. Advise customer to wait."].

Definition reason_sla_breach : text :=
  [Lit "SLA BREACH: Pending state exceeded auto-reversal window."].

Definition reason_default : text :=
  [Lit "DEFAULT: Case did not match safe automation attributes."].

(** [function analyzeCase(data)]: each [if (...) return ...;] of the source is
    one [if ... then JS.ret ... else] here, in the same order. *)
Definition analyzeCase : JS.M Decision :=
  (json <- JS.JSON_stringify ;;
   JS.console_log [LogStr "Analyzing Case:"; json] ;;;
   debited <- JS.get debited_from_customer ;;
   st <- JS.get status ;;
   if debited && (st =? "FAILED") then
     JS.ret {| decision := "ESCALATE"; reason := reason_limbo |}
   else
   amt <- JS.get amount ;;
   if JS.gt amt (HIGH_VALUE_THRESHOLD RULES) then
     JS.ret {| decision := "ESCALATE"; reason := reason_high_value amt |}
   else
   score <- JS.get system_certainty_score ;;
   if JS.lt score (CERTAINTY_THRESHOLD RULES) then
     JS.ret {| decision := "ESCALATE"; reason := reason_uncertainty |}
   else
   st' <- JS.get status ;;
   if st' =? "PENDING" then
     hours <- JS.get time_elapsed_hours ;;
     if JS.lt hours (AUTO_REVERSAL_WINDOW_HOURS RULES) then
       JS.ret {| decision := "WAIT"; reason := reason_wait |}
     else
       JS.ret {| decision := "ESCALATE"; reason := reason_sla_breach |}
   else
     JS.ret {| decision := "ESCALATE"; reason := reason_default |})%js.

(** A call [analyzeCase(d)] made when the console already holds [out]. *)
Definition call (d : CaseRecord) (out : list (list logged)) : Decision * World :=
  analyzeCase {| data := d; console := out |}.

(** The value the call returns. *)
Definition evaluate (d : CaseRecord) (out : list (list logged)) : Decision :=
  fst (call d out).

(** ** The sample scenarios of the source *)

Definition scenario_pending : CaseRecord :=
  {| status := "PENDING"; gateway_response := "TIMEOUT"; amount := 150%float;
     currency := None; debited_from_customer := true;
     time_elapsed_hours := 2%float; system_certainty_score := 1.0%float |}.

Definition scenario_limbo : CaseRecord :=
  {| status := "FAILED"; gateway_response := "FAILURE"; amount := 4500%float;
     currency := None; debited_from_customer := true;
     time_elapsed_hours := 0.5%float; system_certainty_score := 1.0%float |}.

Definition scenario_high_value : CaseRecord :=
  {| status := "PENDING"; gateway_response := "TIMEOUT"; amount := 12000%float;
     currency := None; debited_from_customer := true;
     time_elapsed_hours := 1%float; system_certainty_score := 1.0%float |}.

(** ** Vocabulary of the properties *)

(** The "money in limbo" state: debited, yet marked FAILED. *)
Definition limbo (d : CaseRecord) : bool :=
  debited_from_customer d && (status d =? "FAILED").

(** The shape of a record as section 3 of the specification wants it. *)
Definition well_formed (d : CaseRecord) : bool :=
  ((status d =? "FAILED") || (status d =? "PENDING") || (status d =? "SUCCESS"))
  && ((gateway_response d =? "FAILURE") || (gateway_response d =? "TIMEOUT")
      || (gateway_response d =? "SUCCESS"))
  && JS.ge (amount d) 0
  && JS.ge (time_elapsed_hours d) 0
  && JS.ge (system_certainty_score d) 0
  && JS.le (system_certainty_score d) 1.

(** A status outside the three the data shape lists. *)
Definition unrecognized (st : string) : bool :=
  negb ((st =? "FAILED") || (st =? "PENDING") || (st =? "SUCCESS")).

(** Two calls in a row on the same object. *)
Definition analyzeCase_twice : JS.M (Decision * Decision) :=
  (r1 <- analyzeCase ;;
   r2 <- analyzeCase ;;
   JS.ret (r1, r2))%js.

(** A pending case whose amount is NaN. *)
Definition nan_amount_case : CaseRecord :=
  {| status := "PENDING"; gateway_response := "TIMEOUT"; amount := nan;
     currency := None; debited_from_customer := false;
     time_elapsed_hours := 2%float; system_certainty_score := 1.0%float |}.

(** A pending case with a negative amount. *)
Definition negative_amount_case : CaseRecord :=
  {| status := "PENDING"; gateway_response := "TIMEOUT"; amount := (-150)%float;
     currency := Some "INR"; debited_from_customer := true;
     time_elapsed_hours := 2%float; system_certainty_score := 1.0%float |}.

(** ** The demonstration harness *)

(** An element of the array [scenarios]: [{ name: ..., data: ... }]. *)
Module Scenario.

Record t : Type := mk {
  name : string;
  data : CaseRecord
}.

End Scenario.

(** One argument of a [console.log] call of the harness: what [analyzeCase]
    itself can print, or the object it returned. *)
Inductive printed : Type :=
| Plain (l : logged)
| Object (r : Decision).

(** The one-character string written [\n] in the source. *)
Definition newline : string := String "010"%char EmptyString.

Definition scenarios : list Scenario.t :=
  [ {| Scenario.name := "Standard Pending Reversal";
       Scenario.data := scenario_pending |};
    {| Scenario.name := "Money Limbo (Debited but Failed)";
       Scenario.data := scenario_limbo |};
    {| Scenario.name := "High Value Panic";
       Scenario.data := scenario_high_value |} ].

(** [analyzeCase(scenario.data)] called from the harness: the function runs on
    the object held by the scenario, and what it writes lands on the console
    the harness writes to. *)
Definition analyzeCase_on (sc : Scenario.t) (out : list (list printed))
  : Decision * Scenario.t * list (list printed) :=
  let (result, w) := analyzeCase {| data := Scenario.data sc; console := [] |} in
  (result,
   {| Scenario.name := Scenario.name sc; Scenario.data := data w |},
   (out ++ map (map Plain) (console w))%list).

(** The body of the arrow function given to [scenarios.forEach]. *)
Definition run_scenario (sc : Scenario.t) (out : list (list printed))
  : Scenario.t * list (list printed) :=
  let out1 :=
    (out ++ [[Plain (LogStr ("--- Scenario: " ++ Scenario.name sc ++ " ---"))]])%list in
  let '(result, sc', out2) := analyzeCase_on sc out1 in
  let out3 := (out2 ++ [[Plain (LogStr "OUTPUT:"); Object result]])%list in
  (sc', (out3 ++ [[Plain (LogStr newline)]])%list).

(** [scs.forEach(scenario => { ... })]. *)
Fixpoint forEach (scs : list Scenario.t) (out : list (list printed))
  : list Scenario.t * list (list printed) :=
  match scs with
  | [] => ([], out)
  | sc :: rest =>
      let (sc', out') := run_scenario sc out in
      let (rest', out'') := forEach rest out' in
      (sc' :: rest', out'')
  end.

(** The statements under "Run Tests", over an array [scs] of scenarios. *)
Definition run_tests (scs : list Scenario.t) (out : list (list printed))
  : list Scenario.t * list (list printed) :=
  forEach scs
    (out ++ [[Plain (LogStr ("=== RUNNING DECISION PROTO CODES ===" ++ newline))]])%list.

(** The objects printed on a console, oldest first. *)
Definition objects (out : list (list printed)) : list Decision :=
  flat_map
    (flat_map (fun p => match p with Object r => [r] | Plain _ => [] end)) out.

(** ** Proof steps *)

Ltac step :=
  cbv [evaluate call analyzeCase_twice analyzeCase JS.bind JS.get JS.ret
       JS.JSON_stringify JS.console_log data console fst snd
       HIGH_VALUE_THRESHOLD AUTO_REVERSAL_WINDOW_HOURS CERTAINTY_THRESHOLD
       RULES].

Ltac branch :=
  match goal with
  | |- context [if ?c then _ else _] => destruct c eqn:?
  end.

Ltac run := step; repeat (branch; step).

Ltac strings :=
  repeat match goal with
  | H : (_ =? _) = true |- _ => apply String.eqb_eq in H
  | H : (_ =? _) = false |- _ => apply String.eqb_neq in H
  end.

Ltac reasons :=
  unfold reason_limbo, reason_high_value, reason_uncertainty, reason_wait,
    reason_sla_breach, reason_default in *.

Ltac order_facts :=
  repeat match goal with
  | H : context [(?x ?= ?y)%Z] |- _ => destruct (Z.compare_spec x y)
  | |- context [(?x ?= ?y)%Z] => destruct (Z.compare_spec x y)
  | H : context [(?x ?= ?y)%positive] |- _ => destruct (Pos.compare_spec x y)
  | |- context [(?x ?= ?y)%positive] => destruct (Pos.compare_spec x y)
  end.

Ltac by_kind_and_sign a b c :=
  destruct a as [?s|?s| |?s ?m ?e], b as [?s|?s| |?s ?m ?e],
           c as [?s|?s| |?s ?m ?e]; simpl; try discriminate;
  repeat match goal with
  | s : bool |- _ => destruct s; simpl; try discriminate
  end;
  try reflexivity;
  change (Pos.compare_cont Eq) with Pos.compare;
  intros; order_facts; simpl in *; subst;
  try discriminate; try reflexivity; try lia.

(** * Properties *)

(** ** The sample scenarios *)

Example run_pending :
  evaluate scenario_pending [] = {| decision := "WAIT"; reason := reason_wait |}.
Proof. reflexivity. Qed.

Example run_limbo :
  evaluate scenario_limbo [] = {| decision := "ESCALATE"; reason := reason_limbo |}.
Proof. reflexivity. Qed.

Example run_high_value :
  evaluate scenario_high_value [] =
  {| decision := "ESCALATE"; reason := reason_high_value 12000%float |}.
Proof. reflexivity. Qed.

Example run_nan_amount : decision (evaluate nan_amount_case []) = "WAIT".
Proof. reflexivity. Qed.

(** ** Order facts on binary64 numbers *)

Section FloatOrder.

Lemma SFcompare_antisym (a b : spec_float) :
  SFcompare b a = option_map CompOpp (SFcompare a b).
Proof.
  destruct a as [sa|sa| |sa ma ea], b as [sb|sb| |sb mb eb]; simpl;
    try reflexivity;
    try (destruct sa; reflexivity);
    try (destruct sb; reflexivity);
    try (destruct sa, sb; reflexivity).
  destruct sa, sb; simpl; try reflexivity;
    rewrite (Z.compare_antisym ea eb);
    destruct (ea ?= eb)%Z; simpl; try reflexivity;
    rewrite (Pos.compare_cont_antisym ma mb Eq); reflexivity.
Qed.

(** [x === y] excludes [x < y]. *)
Lemma eq_not_lt (x y : float) : JS.eq x y = true -> JS.lt x y = false.
Proof.
  unfold JS.eq, JS.lt. rewrite eqb_spec, ltb_spec. unfold SFeqb, SFltb.
  destruct (SFcompare (Prim2SF x) (Prim2SF y)) as [[| |]|];
    intros; try discriminate; reflexivity.
Qed.

(** [x === y] excludes [x > y]. *)
Lemma eq_not_gt (x y : float) : JS.eq x y = true -> JS.gt x y = false.
Proof.
  unfold JS.eq, JS.gt. rewrite eqb_spec, ltb_spec. unfold SFeqb, SFltb.
  rewrite (SFcompare_antisym (Prim2SF x) (Prim2SF y)).
  destruct (SFcompare (Prim2SF x) (Prim2SF y)) as [[| |]|];
    intros; try discriminate; reflexivity.
Qed.

(** [x >= y] excludes [x < y]. *)
Lemma ge_not_lt (x y : float) : JS.ge x y = true -> JS.lt x y = false.
Proof.
  unfold JS.ge, JS.lt. rewrite leb_spec, ltb_spec. unfold SFleb, SFltb.
  rewrite (SFcompare_antisym (Prim2SF y) (Prim2SF x)).
  destruct (SFcompare (Prim2SF y) (Prim2SF x)) as [[| |]|];
    intros; try discriminate; reflexivity.
Qed.

(** [x <= y] excludes [x > y]. *)
Lemma le_not_gt (x y : float) : JS.le x y = true -> JS.gt x y = false.
Proof.
  unfold JS.le, JS.gt. rewrite leb_spec, ltb_spec. unfold SFleb, SFltb.
  rewrite (SFcompare_antisym (Prim2SF x) (Prim2SF y)).
  destruct (SFcompare (Prim2SF x) (Prim2SF y)) as [[| |]|];
    intros; try discriminate; reflexivity.
Qed.

(** A number that is not NaN has a specification other than [S754_nan]. *)
Lemma not_nan_spec (x : float) : is_nan x = false -> Prim2SF x <> S754_nan.
Proof.
  unfold is_nan. rewrite eqb_spec. intros H E. rewrite E in H. discriminate.
Qed.

Lemma SFcompare_refl (a : spec_float) :
  a <> S754_nan -> SFcompare a a = Some Eq.
Proof.
  destruct a as [sa|sa| |sa ma ea]; simpl; intros H; try congruence.
  - destruct sa; reflexivity.
  - rewrite Z.compare_refl, Pos.compare_cont_refl. destruct sa; reflexivity.
Qed.

(** Whatever compares [<=] with something is not NaN. *)
Lemma ge_not_nan (x y : float) : JS.ge x y = true -> is_nan x = false.
Proof.
  unfold JS.ge, is_nan. rewrite leb_spec, eqb_spec. unfold SFleb, SFeqb.
  intros H. rewrite SFcompare_refl; [reflexivity |].
  intros E. rewrite E in H. destruct (Prim2SF y); discriminate.
Qed.

(** Away from NaN the order is total: [x <= y] is the negation of [x > y]. *)
Lemma le_is_not_gt (x y : float) :
  is_nan x = false -> is_nan y = false -> JS.le x y = negb (JS.gt x y).
Proof.
  intros Hx Hy. apply not_nan_spec in Hx. apply not_nan_spec in Hy.
  unfold JS.le, JS.gt. rewrite leb_spec, ltb_spec. unfold SFleb, SFltb.
  rewrite (SFcompare_antisym (Prim2SF x) (Prim2SF y)).
  destruct (Prim2SF x) as [sa|sa| |sa ma ea]; try congruence;
    destruct (Prim2SF y) as [sb|sb| |sb mb eb]; try congruence;
    match goal with
    | |- context [SFcompare ?a ?b] => destruct (SFcompare a b) as [[| |]|] eqn:E
    end; try reflexivity; simpl in E; try discriminate;
    destruct sa; discriminate.
Qed.

(** Away from NaN, [x >= y] is the negation of [x < y]. *)
Lemma ge_is_not_lt (x y : float) :
  is_nan x = false -> is_nan y = false -> JS.ge x y = negb (JS.lt x y).
Proof. intros Hx Hy. exact (le_is_not_gt y x Hy Hx). Qed.

(** A negative number is above no positive one. *)
Lemma negative_not_above (x c : float) :
  JS.lt x 0 = true -> JS.lt 0 c = true -> JS.gt x c = false.
Proof.
  unfold JS.lt, JS.gt. rewrite !ltb_spec. unfold SFltb.
  change (Prim2SF 0) with (S754_zero false).
  destruct (Prim2SF x) as [sa|sa| |sa ma ea], (Prim2SF c) as [sb|sb| |sb mb eb];
    simpl; try discriminate;
    try (destruct sa; try discriminate; destruct sb; try discriminate;
         reflexivity).
Qed.

End FloatOrder.

(** ** Running the procedure *)

Section Runs.

Variable d : CaseRecord.
Variable out : list (list logged).

(** What a call leaves behind: the object as it was, one more console line. *)
Lemma call_world :
  snd (call d out) =
  {| data := d; console := out ++ [[LogStr "Analyzing Case:"; LogJSON d]] |}.
Proof. run; reflexivity. Qed.

(** What a call returns, as one expression over the fields. *)
Lemma evaluate_eq :
  evaluate d out =
  if limbo d then {| decision := "ESCALATE"; reason := reason_limbo |}
  else if JS.gt (amount d) 5000 then
    {| decision := "ESCALATE"; reason := reason_high_value (amount d) |}
  else if JS.lt (system_certainty_score d) 1.0 then
    {| decision := "ESCALATE"; reason := reason_uncertainty |}
  else if status d =? "PENDING" then
    if JS.lt (time_elapsed_hours d) 24 then
      {| decision := "WAIT"; reason := reason_wait |}
    else {| decision := "ESCALATE"; reason := reason_sla_breach |}
  else {| decision := "ESCALATE"; reason := reason_default |}.
Proof. unfold limbo. run; reflexivity. Qed.

(** The console plays no part in the returned value. *)
Lemma evaluate_console (out' : list (list logged)) :
  evaluate d out' = evaluate d out.
Proof. run; reflexivity. Qed.

End Runs.

Lemma limbo_spec (d : CaseRecord) :
  limbo d = true <-> debited_from_customer d = true /\ status d = "FAILED".
Proof.
  unfold limbo. rewrite andb_true_iff, String.eqb_eq. reflexivity.
Qed.

Lemma pending_not_limbo (d : CaseRecord) : status d = "PENDING" -> limbo d = false.
Proof.
  intros H. unfold limbo. rewrite H. apply andb_false_r.
Qed.

(** ** The single path to WAIT *)

(** C1, as stated, fails on a pending record whose amount is NaN: the code
    answers WAIT, yet the record is not on the stated path, for NaN <= 5000
    is false. *)
Lemma wait_iff_stated_path_fails :
  decision (evaluate nan_amount_case []) = "WAIT" /\
  ~ (limbo nan_amount_case = false /\
     JS.le (amount nan_amount_case) 5000 = true /\
     JS.ge (system_certainty_score nan_amount_case) 1.0 = true /\
     status nan_amount_case = "PENDING" /\
     JS.lt (time_elapsed_hours nan_amount_case) 24 = true).
Proof.
  split; [reflexivity |].
  intros (_ & Hle & _). vm_compute in Hle. discriminate Hle.
Qed.

(** C1 (amended). The decision is WAIT if and only if the record is not in
    the limbo state, its amount is not greater than 5000, its certainty score
    is not less than 1.0, its status is PENDING and its elapsed time is
    strictly less than 24; every other record yields ESCALATE. *)
Theorem wait_iff_single_path (d : CaseRecord) (out : list (list logged)) :
  (decision (evaluate d out) = "WAIT" <->
   (limbo d = false /\
    JS.gt (amount d) 5000 = false /\
    JS.lt (system_certainty_score d) 1.0 = false /\
    status d = "PENDING" /\
    JS.lt (time_elapsed_hours d) 24 = true))
  /\
  (~ (limbo d = false /\
      JS.gt (amount d) 5000 = false /\
      JS.lt (system_certainty_score d) 1.0 = false /\
      status d = "PENDING" /\
      JS.lt (time_elapsed_hours d) 24 = true) ->
   decision (evaluate d out) = "ESCALATE").
Proof.
  rewrite evaluate_eq.
  destruct (limbo d) eqn:Hl, (JS.gt (amount d) 5000) eqn:Ha,
           (JS.lt (system_certainty_score d) 1.0) eqn:Hs,
           (status d =? "PENDING") eqn:Hp,
           (JS.lt (time_elapsed_hours d) 24) eqn:Ht;
    cbn [decision]; strings;
    (split; [split; [intros H; try discriminate H | intros (? & ? & ? & ? & ?)]
            | intros H]);
    try discriminate; try reflexivity; try contradiction;
    try (repeat split; trivial; fail);
    exfalso; apply H; repeat split; trivial.
Qed.

(** Where neither number is NaN, the path reads with [<=] and [>=], the way
    C1 words it. *)
Lemma wait_iff_on_ordered_numbers (d : CaseRecord) (out : list (list logged)) :
  is_nan (amount d) = false ->
  is_nan (system_certainty_score d) = false ->
  (decision (evaluate d out) = "WAIT" <->
   (limbo d = false /\
    JS.le (amount d) 5000 = true /\
    JS.ge (system_certainty_score d) 1.0 = true /\
    status d = "PENDING" /\
    JS.lt (time_elapsed_hours d) 24 = true)).
Proof.
  intros Na Ns.
  rewrite (le_is_not_gt (amount d) 5000 Na eq_refl).
  rewrite (ge_is_not_lt (system_certainty_score d) 1.0 Ns eq_refl).
  rewrite evaluate_eq.
  destruct (limbo d) eqn:Hl, (JS.gt (amount d) 5000) eqn:Ha,
           (JS.lt (system_certainty_score d) 1.0) eqn:Hs,
           (status d =? "PENDING") eqn:Hp,
           (JS.lt (time_elapsed_hours d) 24) eqn:Ht;
    cbn [decision negb]; strings;
    (split; [intros H; try discriminate H | intros (? & ? & ? & ? & ?)]);
    try discriminate; try reflexivity; try contradiction;
    repeat split; trivial.
Qed.

(** On the records that section 3 of the specification calls well formed,
    C1 holds the way it is worded. *)
Lemma wait_iff_well_formed (d : CaseRecord) (out : list (list logged)) :
  well_formed d = true ->
  (decision (evaluate d out) = "WAIT" <->
   (limbo d = false /\
    JS.le (amount d) 5000 = true /\
    JS.ge (system_certainty_score d) 1.0 = true /\
    status d = "PENDING" /\
    JS.lt (time_elapsed_hours d) 24 = true)).
Proof.
  unfold well_formed. rewrite !andb_true_iff.
  intros [[[[[_ _] Ha] _] Hs] _].
  apply wait_iff_on_ordered_numbers; eapply ge_not_nan; eassumption.
Qed.

(** ** Rule 1 comes first *)

(** C2. A record in the limbo state (debited and FAILED) is answered
    ESCALATE with the reconciliation reason, never WAIT, whatever its other
    fields hold: no later rule, the pending one included, is consulted. *)
Theorem limbo_dominates (d : CaseRecord) (out : list (list logged)) :
  debited_from_customer d = true ->
  status d = "FAILED" ->
  evaluate d out = {| decision := "ESCALATE"; reason := reason_limbo |} /\
  decision (evaluate d out) <> "WAIT".
Proof.
  intros Hd Hs. rewrite evaluate_eq.
  replace (limbo d) with true by (symmetry; apply limbo_spec; tauto).
  split; [reflexivity | discriminate].
Qed.

Lemma limbo_dominates_witness :
  JS.lt (time_elapsed_hours scenario_limbo) 24 = true /\
  evaluate scenario_limbo [] =
  {| decision := "ESCALATE"; reason := reason_limbo |}.
Proof.
  split; [reflexivity |].
  apply (limbo_dominates scenario_limbo []); reflexivity.
Defined.

(** ** The boundaries of the three thresholds *)

(** C3. Outside the limbo state, an amount equal to 5000 does not trigger
    the high-value rule: the answer is the one of the later rules, and its
    reason is not the high-value one. An amount strictly greater than 5000
    is answered ESCALATE with the high-value reason. *)
Theorem high_value_boundary (d : CaseRecord) (out : list (list logged)) :
  limbo d = false ->
  (JS.eq (amount d) 5000 = true ->
   evaluate d out =
   (if JS.lt (system_certainty_score d) 1.0 then
      {| decision := "ESCALATE"; reason := reason_uncertainty |}
    else if status d =? "PENDING" then
      if JS.lt (time_elapsed_hours d) 24 then
        {| decision := "WAIT"; reason := reason_wait |}
      else {| decision := "ESCALATE"; reason := reason_sla_breach |}
    else {| decision := "ESCALATE"; reason := reason_default |}) /\
   forall x, reason (evaluate d out) <> reason_high_value x)
  /\
  (JS.gt (amount d) 5000 = true ->
   evaluate d out =
   {| decision := "ESCALATE"; reason := reason_high_value (amount d) |}).
Proof.
  intros Hl. rewrite evaluate_eq, Hl. split.
  - intros He. rewrite (eq_not_gt _ _ He). split; [reflexivity |].
    intros x. repeat branch; discriminate.
  - intros Hg. rewrite Hg. reflexivity.
Qed.

Lemma high_value_boundary_witness :
  evaluate (mkCase "PENDING" "TIMEOUT" 5000 None true 2 1.0) [] =
  {| decision := "WAIT"; reason := reason_wait |} /\
  evaluate (mkCase "PENDING" "TIMEOUT" 5000.5 None true 2 1.0) [] =
  {| decision := "ESCALATE"; reason := reason_high_value 5000.5 |}.
Proof.
  split.
  - exact (proj1 (proj1 (high_value_boundary
             (mkCase "PENDING" "TIMEOUT" 5000 None true 2 1.0) [] eq_refl)
             eq_refl)).
  - exact (proj2 (high_value_boundary
             (mkCase "PENDING" "TIMEOUT" 5000.5 None true 2 1.0) [] eq_refl)
             eq_refl).
Defined.

(** C4. Outside the limbo state and with an amount not above 5000, a
    certainty score equal to 1.0 does not trigger the low-certainty rule: the
    answer is the one of the pending and default rules. A score strictly
    below 1.0 is answered ESCALATE with the insufficient-certainty reason. *)
Theorem certainty_boundary (d : CaseRecord) (out : list (list logged)) :
  limbo d = false ->
  JS.gt (amount d) 5000 = false ->
  (JS.eq (system_certainty_score d) 1.0 = true ->
   evaluate d out =
   (if status d =? "PENDING" then
      if JS.lt (time_elapsed_hours d) 24 then
        {| decision := "WAIT"; reason := reason_wait |}
      else {| decision := "ESCALATE"; reason := reason_sla_breach |}
    else {| decision := "ESCALATE"; reason := reason_default |}) /\
   reason (evaluate d out) <> reason_uncertainty)
  /\
  (JS.lt (system_certainty_score d) 1.0 = true ->
   evaluate d out =
   {| decision := "ESCALATE"; reason := reason_uncertainty |}).
Proof.
  intros Hl Ha. rewrite evaluate_eq, Hl, Ha. split.
  - intros He. rewrite (eq_not_lt _ _ He). split; [reflexivity |].
    repeat branch; discriminate.
  - intros Hs. rewrite Hs. reflexivity.
Qed.

Lemma certainty_boundary_witness :
  evaluate (mkCase "SUCCESS" "SUCCESS" 150 (Some "INR") false 2 1.0) [] =
  {| decision := "ESCALATE"; reason := reason_default |} /\
  evaluate (mkCase "PENDING" "TIMEOUT" 150 (Some "INR") true 2 0.75) [] =
  {| decision := "ESCALATE"; reason := reason_uncertainty |}.
Proof.
  split.
  - exact (proj1 (proj1 (certainty_boundary
             (mkCase "SUCCESS" "SUCCESS" 150 (Some "INR") false 2 1.0) []
             eq_refl eq_refl) eq_refl)).
  - exact (proj2 (certainty_boundary
             (mkCase "PENDING" "TIMEOUT" 150 (Some "INR") true 2 0.75) []
             eq_refl eq_refl) eq_refl).
Defined.

(** C5. For a PENDING record whose amount is not above 5000 and whose
    certainty score is not below 1.0 (the limbo rule cannot match a PENDING
    record): an elapsed time equal to 24 is answered ESCALATE with the
    SLA-breach reason, an elapsed time strictly below 24 is answered WAIT. *)
Theorem window_boundary (d : CaseRecord) (out : list (list logged)) :
  status d = "PENDING" ->
  JS.gt (amount d) 5000 = false ->
  JS.lt (system_certainty_score d) 1.0 = false ->
  (JS.eq (time_elapsed_hours d) 24 = true ->
   evaluate d out =
   {| decision := "ESCALATE"; reason := reason_sla_breach |})
  /\
  (JS.lt (time_elapsed_hours d) 24 = true ->
   evaluate d out = {| decision := "WAIT"; reason := reason_wait |}).
Proof.
  intros Hp Ha Hs.
  rewrite evaluate_eq, (pending_not_limbo d Hp), Ha, Hs, Hp.
  change ("PENDING" =? "PENDING") with true. cbv iota. split.
  - intros He. rewrite (eq_not_lt _ _ He). reflexivity.
  - intros Ht. rewrite Ht. reflexivity.
Qed.

Lemma window_boundary_witness :
  evaluate (mkCase "PENDING" "TIMEOUT" 150 None true 24 1.0) [] =
  {| decision := "ESCALATE"; reason := reason_sla_breach |} /\
  evaluate (mkCase "PENDING" "TIMEOUT" 150 None true 23.5 1.0) [] =
  {| decision := "WAIT"; reason := reason_wait |}.
Proof.
  split.
  - exact (proj1 (window_boundary
             (mkCase "PENDING" "TIMEOUT" 150 None true 24 1.0) []
             eq_refl eq_refl eq_refl) eq_refl).
  - exact (proj2 (window_boundary
             (mkCase "PENDING" "TIMEOUT" 150 None true 23.5 1.0) []
             eq_refl eq_refl eq_refl) eq_refl).
Defined.

(** ** The default rule *)

(** C6. A record whose status is SUCCESS, or is none of the three listed
    ones, is always answered ESCALATE; when no fail-safe triggers (not in
    limbo, amount not above 5000, certainty not below 1.0) the reason is the
    default one. *)
Theorem no_automation_outside_pending (d : CaseRecord) (out : list (list logged)) :
  status d = "SUCCESS" \/ unrecognized (status d) = true ->
  decision (evaluate d out) = "ESCALATE" /\
  (limbo d = false ->
   JS.gt (amount d) 5000 = false ->
   JS.lt (system_certainty_score d) 1.0 = false ->
   evaluate d out = {| decision := "ESCALATE"; reason := reason_default |}).
Proof.
  intros Hs.
  assert (Hp : (status d =? "PENDING") = false).
  { destruct Hs as [Hs | Hs].
    - rewrite Hs. reflexivity.
    - unfold unrecognized in Hs. apply negb_true_iff in Hs.
      apply orb_false_iff in Hs. destruct Hs as [Hs _].
      apply orb_false_iff in Hs. tauto. }
  rewrite evaluate_eq, Hp. split.
  - repeat branch; reflexivity.
  - intros Hl Ha Hc. rewrite Hl, Ha, Hc. reflexivity.
Qed.

Lemma no_automation_outside_pending_witness :
  evaluate (mkCase "SUCCESS" "SUCCESS" 150 (Some "INR") false 2 1.0) [] =
  {| decision := "ESCALATE"; reason := reason_default |} /\
  evaluate (mkCase "REFUNDED" "SUCCESS" 150 (Some "INR") true 2 1.0) [] =
  {| decision := "ESCALATE"; reason := reason_default |}.
Proof.
  split.
  - exact (proj2 (no_automation_outside_pending
             (mkCase "SUCCESS" "SUCCESS" 150 (Some "INR") false 2 1.0) []
             (or_introl eq_refl)) eq_refl eq_refl eq_refl).
  - exact (proj2 (no_automation_outside_pending
             (mkCase "REFUNDED" "SUCCESS" 150 (Some "INR") true 2 1.0) []
             (or_intror eq_refl)) eq_refl eq_refl eq_refl).
Defined.

(** ** Totality, frame and determinism *)

(** C7. Every call returns: for every record (well-formed or not) the call
    yields a Decision and a final world; the Decision is one of the six
    object literals of the source, and its [decision] field is "WAIT" or
    "ESCALATE", not both. *)
Theorem analyzeCase_total (d : CaseRecord) (out : list (list logged)) :
  exists (r : Decision) (w' : World),
    call d out = (r, w') /\
    In r [ {| decision := "ESCALATE"; reason := reason_limbo |};
           {| decision := "ESCALATE"; reason := reason_high_value (amount d) |};
           {| decision := "ESCALATE"; reason := reason_uncertainty |};
           {| decision := "WAIT"; reason := reason_wait |};
           {| decision := "ESCALATE"; reason := reason_sla_breach |};
           {| decision := "ESCALATE"; reason := reason_default |} ] /\
    (decision r = "WAIT" \/ decision r = "ESCALATE") /\
    ~ (decision r = "WAIT" /\ decision r = "ESCALATE").
Proof.
  exists (evaluate d out), (snd (call d out)). split.
  - unfold evaluate. destruct (call d out); reflexivity.
  - rewrite evaluate_eq.
    repeat branch; cbn [decision In];
      (split; [tauto | split; [tauto | intros [H1 H2]; discriminate]]).
Qed.

(** C8. A call leaves the record it was given as it was, and returns the same
    Decision whatever the console held; two calls in a row on the same record
    return the same Decision and still leave the record unchanged. *)
Theorem analyzeCase_frame_deterministic (d : CaseRecord) (out out' : list (list logged)) :
  data (snd (call d out)) = d /\
  evaluate d out = evaluate d out' /\
  fst (fst (analyzeCase_twice (mkWorld d out))) =
  snd (fst (analyzeCase_twice (mkWorld d out))) /\
  data (snd (analyzeCase_twice (mkWorld d out))) = d.
Proof.
  split; [| split; [| split]].
  - rewrite call_world. reflexivity.
  - apply evaluate_console.
  - run; first [reflexivity | congruence].
  - run; first [reflexivity | congruence].
Qed.

(** ** Fields carried for audit only *)

(** C9. Two records that agree on status, amount, debited_from_customer,
    time_elapsed_hours and system_certainty_score, and so differ at most in
    gateway_response and currency, get the same decision and reason. *)
Theorem audit_fields_ignored (d1 d2 : CaseRecord) (out1 out2 : list (list logged)) :
  status d1 = status d2 ->
  amount d1 = amount d2 ->
  debited_from_customer d1 = debited_from_customer d2 ->
  time_elapsed_hours d1 = time_elapsed_hours d2 ->
  system_certainty_score d1 = system_certainty_score d2 ->
  evaluate d1 out1 = evaluate d2 out2.
Proof.
  intros Hs Ha Hd Ht Hc. rewrite !evaluate_eq. unfold limbo.
  rewrite Hs, Ha, Hd, Ht, Hc. reflexivity.
Qed.

Lemma audit_fields_ignored_witness :
  evaluate (mkCase "PENDING" "TIMEOUT" 150 None true 2 1.0) [] =
  evaluate (mkCase "PENDING" "SUCCESS" 150 (Some "USD") true 2 1.0) [].
Proof.
  apply audit_fields_ignored; reflexivity.
Defined.

(** ** No validation of the input *)

(** C10. No result other than WAIT and ESCALATE exists, and a PENDING record
    with a negative amount, a certainty score of at least 1.0 and an elapsed
    time below 24 is answered WAIT: the negative amount passes the high-value
    check unnoticed. *)
Theorem negative_amount_waits (d : CaseRecord) (out : list (list logged)) :
  (decision (evaluate d out) = "WAIT" \/ decision (evaluate d out) = "ESCALATE")
  /\
  (JS.lt (amount d) 0 = true ->
   status d = "PENDING" ->
   JS.ge (system_certainty_score d) 1.0 = true ->
   JS.lt (time_elapsed_hours d) 24 = true ->
   evaluate d out = {| decision := "WAIT"; reason := reason_wait |}).
Proof.
  rewrite evaluate_eq. split.
  - repeat branch; cbn [decision]; tauto.
  - intros Ha Hp Hc Ht.
    rewrite (pending_not_limbo d Hp), Hp, Ht.
    rewrite (negative_not_above (amount d) 5000 Ha eq_refl).
    rewrite (ge_not_lt _ _ Hc). reflexivity.
Qed.

Lemma negative_amount_waits_witness :
  evaluate negative_amount_case [] = {| decision := "WAIT"; reason := reason_wait |}.
Proof.
  apply (proj2 (negative_amount_waits negative_amount_case [])); reflexivity.
Defined.

(** * Further properties of the decision procedure *)

(** ** The console line *)

(** X1. On every path, the escalating ones included, a call writes exactly
    one console line, the label followed by the record as it was given, after
    the lines that were there, and leaves the record alone. *)
Theorem analyzeCase_logs_once (w : World) :
  snd (analyzeCase w) =
  {| data := data w;
     console := console w ++ [[LogStr "Analyzing Case:"; LogJSON (data w)]] |}.
Proof.
  destruct w as [d out]. exact (call_world d out).
Qed.

(** ** What a reason tells about the record *)

(** X2. The reconciliation reason is given to the records in the limbo
    state and to no other. *)
Theorem limbo_reason_iff (d : CaseRecord) (out : list (list logged)) :
  reason (evaluate d out) = reason_limbo <->
  debited_from_customer d = true /\ status d = "FAILED".
Proof.
  rewrite <- limbo_spec, evaluate_eq.
  repeat branch; cbn [reason]; reasons; split; intros H;
    try discriminate H; reflexivity.
Qed.

(** X3. The high-value reason is given exactly when the record is outside
    the limbo state and its amount is above 5000, and the number it quotes is
    the amount of the record. *)
Theorem high_value_reason_iff (d : CaseRecord) (out : list (list logged)) (x : float) :
  reason (evaluate d out) = reason_high_value x <->
  limbo d = false /\ JS.gt (amount d) 5000 = true /\ x = amount d.
Proof.
  rewrite evaluate_eq.
  destruct (limbo d); [| destruct (JS.gt (amount d) 5000)];
    [ | | repeat branch ]; cbn [reason]; reasons; split;
    try (intros H; discriminate H);
    try (intros (H1 & H2 & H3); discriminate).
  - intros H. injection H as H. auto.
  - intros (_ & _ & ->). reflexivity.
Qed.

(** X4. The insufficient-certainty reason is given exactly when the record
    is outside the limbo state, its amount is not above 5000 and its score is
    below 1.0. *)
Theorem uncertainty_reason_iff (d : CaseRecord) (out : list (list logged)) :
  reason (evaluate d out) = reason_uncertainty <->
  limbo d = false /\
  JS.gt (amount d) 5000 = false /\
  JS.lt (system_certainty_score d) 1.0 = true.
Proof.
  rewrite evaluate_eq.
  repeat branch; cbn [reason]; reasons; split;
    try (intros H; discriminate H);
    try (intros (H1 & H2 & H3); discriminate);
    auto.
Qed.

(** X5. The SLA-breach reason is given exactly to the PENDING records that
    pass the amount and certainty gates and whose elapsed time is not below
    24; an elapsed time that is NaN counts as a breach. *)
Theorem sla_breach_reason_iff (d : CaseRecord) (out : list (list logged)) :
  reason (evaluate d out) = reason_sla_breach <->
  JS.gt (amount d) 5000 = false /\
  JS.lt (system_certainty_score d) 1.0 = false /\
  status d = "PENDING" /\
  JS.lt (time_elapsed_hours d) 24 = false.
Proof.
  rewrite evaluate_eq. split.
  - repeat branch; cbn [reason]; reasons; intros H; try discriminate H.
    strings. auto.
  - intros (Ha & Hs & Hp & Ht).
    rewrite (pending_not_limbo d Hp), Ha, Hs, Hp, Ht. reflexivity.
Qed.

(** X6. The default reason is given exactly when no fail-safe triggers and
    the status is not PENDING. *)
Theorem default_reason_iff (d : CaseRecord) (out : list (list logged)) :
  reason (evaluate d out) = reason_default <->
  limbo d = false /\
  JS.gt (amount d) 5000 = false /\
  JS.lt (system_certainty_score d) 1.0 = false /\
  status d <> "PENDING".
Proof.
  rewrite evaluate_eq. split.
  - repeat branch; cbn [reason]; reasons; intros H; try discriminate H.
    strings. auto.
  - intros (Hl & Ha & Hs & Hp). apply String.eqb_neq in Hp.
    rewrite Hl, Ha, Hs, Hp. reflexivity.
Qed.

(** X7. The reason alone tells the decision: two results with the same
    reason, from whatever records, carry the same decision. *)
Theorem reason_determines_decision
    (d1 d2 : CaseRecord) (out1 out2 : list (list logged)) :
  reason (evaluate d1 out1) = reason (evaluate d2 out2) ->
  decision (evaluate d1 out1) = decision (evaluate d2 out2).
Proof.
  rewrite !evaluate_eq.
  repeat branch; cbn [reason decision]; reasons; intros H;
    try discriminate H; reflexivity.
Qed.

Lemma reason_determines_decision_witness :
  decision (evaluate scenario_pending []) =
  decision (evaluate negative_amount_case []).
Proof.
  apply reason_determines_decision. reflexivity.
Defined.

(** ** WAIT is kept by safer records *)

Section FloatTransitivity.

Lemma SF_le_lt_trans (a b c : spec_float) :
  SFleb a b = true -> SFltb b c = true -> SFltb a c = true.
Proof. unfold SFleb, SFltb. by_kind_and_sign a b c. Qed.

Lemma SF_lt_le_trans (a b c : spec_float) :
  SFltb a b = true -> SFleb b c = true -> SFltb a c = true.
Proof. unfold SFleb, SFltb. by_kind_and_sign a b c. Qed.

(** [x <= y] and [y < z] give [x < z]. *)
Lemma le_lt_trans (x y z : float) :
  JS.le x y = true -> JS.lt y z = true -> JS.lt x z = true.
Proof.
  unfold JS.le, JS.lt. rewrite leb_spec, !ltb_spec. apply SF_le_lt_trans.
Qed.

(** [x < y] and [y <= z] give [x < z]. *)
Lemma lt_le_trans (x y z : float) :
  JS.lt x y = true -> JS.le y z = true -> JS.lt x z = true.
Proof.
  unfold JS.le, JS.lt. rewrite leb_spec, !ltb_spec. apply SF_lt_le_trans.
Qed.

End FloatTransitivity.

(** The path to WAIT, for the proofs below. *)
Lemma wait_path (d : CaseRecord) (out : list (list logged)) :
  decision (evaluate d out) = "WAIT" <->
  limbo d = false /\
  JS.gt (amount d) 5000 = false /\
  JS.lt (system_certainty_score d) 1.0 = false /\
  (status d =? "PENDING") = true /\
  JS.lt (time_elapsed_hours d) 24 = true.
Proof.
  rewrite evaluate_eq.
  repeat branch; cbn [decision]; split;
    try (intros H; discriminate H);
    try (intros (? & ? & ? & ? & ?); discriminate);
    auto.
Qed.

(** X8. Lowering the amount never takes a WAIT away: if a record is answered
    WAIT, so is the record that differs from it only by an amount that is
    less than or equal to its own. *)
Theorem wait_kept_by_lower_amount
    (d d' : CaseRecord) (out out' : list (list logged)) :
  status d' = status d ->
  debited_from_customer d' = debited_from_customer d ->
  time_elapsed_hours d' = time_elapsed_hours d ->
  system_certainty_score d' = system_certainty_score d ->
  JS.le (amount d') (amount d) = true ->
  decision (evaluate d out) = "WAIT" ->
  decision (evaluate d' out') = "WAIT".
Proof.
  intros Hs Hd Ht Hc Hle. rewrite !wait_path. unfold limbo.
  rewrite Hs, Hd, Ht, Hc. intros (Hl & Ha & Hrest).
  split; [exact Hl | split; [| exact Hrest]].
  destruct (JS.gt (amount d') 5000) eqn:Hg; [| reflexivity].
  rewrite <- Ha. symmetry.
  exact (lt_le_trans 5000 (amount d') (amount d) Hg Hle).
Qed.

Lemma wait_kept_by_lower_amount_witness :
  decision (evaluate (mkCase "PENDING" "TIMEOUT" (-7) None true 2 1.0) []) = "WAIT".
Proof.
  apply (wait_kept_by_lower_amount scenario_pending
           (mkCase "PENDING" "TIMEOUT" (-7) None true 2 1.0) [] []);
    reflexivity.
Defined.

(** X9. A shorter elapsed time never takes a WAIT away: if a record is
    answered WAIT, so is the record that differs from it only by an elapsed
    time that is less than or equal to its own. *)
Theorem wait_kept_by_shorter_time
    (d d' : CaseRecord) (out out' : list (list logged)) :
  status d' = status d ->
  debited_from_customer d' = debited_from_customer d ->
  amount d' = amount d ->
  system_certainty_score d' = system_certainty_score d ->
  JS.le (time_elapsed_hours d') (time_elapsed_hours d) = true ->
  decision (evaluate d out) = "WAIT" ->
  decision (evaluate d' out') = "WAIT".
Proof.
  intros Hs Hd Ha Hc Hle. rewrite !wait_path. unfold limbo.
  rewrite Hs, Hd, Ha, Hc. intros (Hl & Hg & Hsc & Hp & Ht).
  repeat (split; [assumption |]).
  exact (le_lt_trans _ _ _ Hle Ht).
Qed.

Lemma wait_kept_by_shorter_time_witness :
  decision (evaluate (mkCase "PENDING" "TIMEOUT" 150 None true 0.5 1.0) []) = "WAIT".
Proof.
  apply (wait_kept_by_shorter_time scenario_pending
           (mkCase "PENDING" "TIMEOUT" 150 None true 0.5 1.0) [] []);
    reflexivity.
Defined.

(** X10. A higher certainty score never takes a WAIT away: if a record is
    answered WAIT, so is the record that differs from it only by a score that
    is greater than or equal to its own. *)
Theorem wait_kept_by_higher_certainty
    (d d' : CaseRecord) (out out' : list (list logged)) :
  status d' = status d ->
  debited_from_customer d' = debited_from_customer d ->
  amount d' = amount d ->
  time_elapsed_hours d' = time_elapsed_hours d ->
  JS.ge (system_certainty_score d') (system_certainty_score d) = true ->
  decision (evaluate d out) = "WAIT" ->
  decision (evaluate d' out') = "WAIT".
Proof.
  intros Hs Hd Ha Ht Hge. rewrite !wait_path. unfold limbo.
  rewrite Hs, Hd, Ha, Ht. intros (Hl & Hg & Hsc & Hrest).
  split; [exact Hl | split; [exact Hg | split; [| exact Hrest]]].
  destruct (JS.lt (system_certainty_score d') 1.0) eqn:Hlow; [| reflexivity].
  rewrite <- Hsc. symmetry.
  exact (le_lt_trans _ _ _ Hge Hlow).
Qed.

Lemma wait_kept_by_higher_certainty_witness :
  decision (evaluate (mkCase "PENDING" "TIMEOUT" 150 None true 2 1.5) []) = "WAIT".
Proof.
  apply (wait_kept_by_higher_certainty scenario_pending
           (mkCase "PENDING" "TIMEOUT" 150 None true 2 1.5) [] []);
    reflexivity.
Defined.

(** ** Fields read on some paths only *)

(** X11. The elapsed time matters for PENDING records only: two records
    with the same status other than PENDING, the same amount, debited flag
    and score get the same decision and reason. *)
Theorem time_ignored_unless_pending
    (d1 d2 : CaseRecord) (out1 out2 : list (list logged)) :
  status d1 <> "PENDING" ->
  status d1 = status d2 ->
  amount d1 = amount d2 ->
  debited_from_customer d1 = debited_from_customer d2 ->
  system_certainty_score d1 = system_certainty_score d2 ->
  evaluate d1 out1 = evaluate d2 out2.
Proof.
  intros Hp Hs Ha Hd Hc. rewrite !evaluate_eq. unfold limbo.
  rewrite <- Hs, <- Ha, <- Hd, <- Hc.
  apply String.eqb_neq in Hp. rewrite Hp. reflexivity.
Qed.

Lemma time_ignored_unless_pending_witness :
  evaluate (mkCase "SUCCESS" "SUCCESS" 150 None false 2 1.0) [] =
  evaluate (mkCase "SUCCESS" "SUCCESS" 150 None false 400 1.0) [].
Proof.
  apply time_ignored_unless_pending; try reflexivity.
  intros H. discriminate H.
Defined.

(** X12. The debited flag matters for FAILED records only: two records with
    the same status other than FAILED, the same amount, elapsed time and
    score get the same decision and reason. *)
Theorem debited_ignored_unless_failed
    (d1 d2 : CaseRecord) (out1 out2 : list (list logged)) :
  status d1 <> "FAILED" ->
  status d1 = status d2 ->
  amount d1 = amount d2 ->
  time_elapsed_hours d1 = time_elapsed_hours d2 ->
  system_certainty_score d1 = system_certainty_score d2 ->
  evaluate d1 out1 = evaluate d2 out2.
Proof.
  intros Hf Hs Ha Ht Hc. rewrite !evaluate_eq. unfold limbo.
  rewrite <- Hs, <- Ha, <- Ht, <- Hc.
  apply String.eqb_neq in Hf. rewrite Hf, !andb_false_r. reflexivity.
Qed.

Lemma debited_ignored_unless_failed_witness :
  evaluate (mkCase "PENDING" "TIMEOUT" 150 None true 2 1.0) [] =
  evaluate (mkCase "PENDING" "TIMEOUT" 150 None false 2 1.0) [].
Proof.
  apply debited_ignored_unless_failed; try reflexivity.
  intros H. discriminate H.
Defined.

(** * The demonstration harness *)

Lemma analyzeCase_on_eq (sc : Scenario.t) (out : list (list printed)) :
  analyzeCase_on sc out =
  (evaluate (Scenario.data sc) [], sc,
   (out ++ [[Plain (LogStr "Analyzing Case:"); Plain (LogJSON (Scenario.data sc))]])%list).
Proof.
  unfold analyzeCase_on.
  pose proof (call_world (Scenario.data sc) []) as Hw.
  unfold evaluate, call in *.
  destruct (analyzeCase {| data := Scenario.data sc; console := [] |}) as [r w].
  cbn [fst snd] in *. subst w. cbn [data console app map].
  destruct sc; reflexivity.
Qed.

Lemma run_scenario_eq (sc : Scenario.t) (out : list (list printed)) :
  run_scenario sc out =
  (sc,
   (out ++
    [ [Plain (LogStr ("--- Scenario: " ++ Scenario.name sc ++ " ---"))];
      [Plain (LogStr "Analyzing Case:"); Plain (LogJSON (Scenario.data sc))];
      [Plain (LogStr "OUTPUT:"); Object (evaluate (Scenario.data sc) [])];
      [Plain (LogStr newline)] ])%list).
Proof.
  unfold run_scenario. rewrite analyzeCase_on_eq.
  rewrite <- !app_assoc. reflexivity.
Qed.

Lemma forEach_eq (scs : list Scenario.t) (out : list (list printed)) :
  forEach scs out =
  (scs,
   (out ++
    flat_map
      (fun sc =>
         [ [Plain (LogStr ("--- Scenario: " ++ Scenario.name sc ++ " ---"))];
           [Plain (LogStr "Analyzing Case:"); Plain (LogJSON (Scenario.data sc))];
           [Plain (LogStr "OUTPUT:"); Object (evaluate (Scenario.data sc) [])];
           [Plain (LogStr newline)] ])
      scs)%list).
Proof.
  revert out. induction scs as [| sc rest IH]; intros out.
  - cbn [forEach flat_map]. rewrite app_nil_r. reflexivity.
  - cbn [forEach flat_map]. rewrite run_scenario_eq, IH.
    rewrite <- app_assoc. reflexivity.
Qed.

Lemma objects_app (o1 o2 : list (list printed)) :
  objects (o1 ++ o2)%list = (objects o1 ++ objects o2)%list.
Proof. unfold objects. apply flat_map_app. Qed.

(** X13. The transcript of a run over any array of scenarios: the lines
    that were on the console, the banner, then for each scenario in order its
    title, the line [analyzeCase] writes, the returned object after "OUTPUT:",
    and a line break; an empty array gives the banner alone. *)
Theorem run_tests_transcript (scs : list Scenario.t) (out : list (list printed)) :
  snd (run_tests scs out) =
  ((out ++ [[Plain (LogStr ("=== RUNNING DECISION PROTO CODES ===" ++ newline))]])
   ++
   flat_map
     (fun sc =>
        [ [Plain (LogStr ("--- Scenario: " ++ Scenario.name sc ++ " ---"))];
          [Plain (LogStr "Analyzing Case:"); Plain (LogJSON (Scenario.data sc))];
          [Plain (LogStr "OUTPUT:"); Object (evaluate (Scenario.data sc) [])];
          [Plain (LogStr newline)] ])
     scs)%list
  /\ snd (run_tests [] out) =
     (out ++ [[Plain (LogStr ("=== RUNNING DECISION PROTO CODES ===" ++ newline))]])%list.
Proof.
  unfold run_tests. rewrite !forEach_eq. cbn [snd flat_map].
  rewrite app_nil_r. split; reflexivity.
Qed.

(** X14. A run leaves every scenario as it was, names and records alike,
    and writes one line for the banner and four for each scenario. *)
Theorem run_tests_keeps_scenarios (scs : list Scenario.t) (out : list (list printed)) :
  fst (run_tests scs out) = scs /\
  length (snd (run_tests scs out)) = length out + 1 + 4 * length scs.
Proof.
  unfold run_tests. rewrite forEach_eq. cbn [fst snd]. split; [reflexivity |].
  rewrite !length_app. cbn [length].
  induction scs as [| sc rest IH]; cbn [flat_map length app]; lia.
Qed.

(** X15. The objects a run prints are, in the order of the array, the
    results of [analyzeCase] on the records of the scenarios, one for each,
    after the objects that were already on the console. *)
Theorem run_tests_outputs (scs : list Scenario.t) (out : list (list printed)) :
  objects (snd (run_tests scs out)) =
  (objects out ++ map (fun sc => evaluate (Scenario.data sc) []) scs)%list.
Proof.
  unfold run_tests. rewrite forEach_eq. cbn [snd].
  rewrite !objects_app. cbn. rewrite app_nil_r. f_equal.
  induction scs as [| sc rest IH]; [reflexivity |].
  cbn [flat_map map]. rewrite objects_app, IH. reflexivity.
Qed.

Example run_tests_on_scenarios :
  map decision (objects (snd (run_tests scenarios []))) =
  ["WAIT"; "ESCALATE"; "ESCALATE"].
Proof. reflexivity. Qed.
